(** * A shallow embedding of [db.h]: the Berkeley DB environment wrapper
    [CDBEnv] and the RAII record accessor [CDB].

    The storage engine behind [DB*], [DB_ENV*], [DB_TXN*] and [DBC*] is
    modelled as an explicit state [Eng] that every engine call threads and
    logs; the C++ [assert] is modelled by an outcome type whose failure is
    process abortion, with the build's [NDEBUG] setting as a parameter. *)

From Stdlib Require Import ZArith Lia.
From stdpp Require Import base gmap strings list.

Open Scope Z_scope.

(** ** Bytes and the serialisation codec *)

Definition bytes := list Byte.byte.

#[global] Instance byte_eq_decision : EqDecision Byte.byte := Byte.byte_eq_dec.
#[global] Program Instance byte_countable : Countable Byte.byte :=
  inj_countable Byte.to_nat Byte.of_nat _.
Next Obligation. intros x. apply Byte.of_to_nat. Qed.

(** [CDataStream << x] and [CDataStream >> x]: encoding is total, decoding
    may throw ([std::ios_base::failure]); a throw is [None]. *)
Record Codec (A : Type) := {
  encode : A -> bytes;
  decode : bytes -> option A
}.
Arguments encode {A} _ _.
Arguments decode {A} _ _.

(** ** Engine constants (Berkeley DB [db.h]) *)

Definition DB_NOTFOUND : Z := -30988.
Definition DB_KEYEXIST : Z := -30995.
Definition DB_NOOVERWRITE : Z := 32.
Definition DB_DBT_MALLOC : Z := 16.
Definition DB_TXN_WRITE_NOSYNC : Z := 268435456.
Definition DB_GET_BOTH : Z := 8.
Definition DB_GET_BOTH_RANGE : Z := 10.
Definition DB_NEXT : Z := 16.
Definition DB_SET : Z := 26.
Definition DB_SET_RANGE : Z := 27.

(** The engine's own error codes are reserved in [-30999 .. -30800]. *)
Definition db_error_code (z : Z) : bool := (-30999 <=? z) && (z <=? -30800).

(** ** The storage engine *)

(** A [DB_TXN*] or a [DB*] is an opaque handle, modelled by an integer. *)
Definition txn_ptr := Z.
Definition db_ptr := Z.

(** Calls issued to the engine, in order. *)
Inductive Call :=
  | CGet (db : db_ptr) (txn : option txn_ptr) (key : bytes)
  | CPut (db : db_ptr) (txn : option txn_ptr) (key val : bytes) (flags : Z)
  | CDel (db : db_ptr) (txn : option txn_ptr) (key : bytes)
  | CExists (db : db_ptr) (txn : option txn_ptr) (key : bytes)
  | CTxnBegin (flags : Z)
  | CTxnCommit (txn : txn_ptr)
  | CTxnAbort (txn : txn_ptr).

(** A failure status of the engine, never 0: negative codes are the
    engine's own, positive ones are [errno] values. *)
Inductive fault := FNeg (p : positive) | FPos (p : positive).

Definition fault_code (f : fault) : Z :=
  match f with FNeg p => Z.neg p | FPos p => Z.pos p end.

(** The engine state: the records of the open file, a persistent engine
    failure (I/O error, deadlock, ...) that makes every record call return
    that status, the answers of the transaction primitives, and the log of
    calls issued so far. *)
Record Eng := mkEng {
  e_store : gmap bytes bytes;
  e_fault : option fault;
  e_txn_begin : Z -> Z * option txn_ptr;
  e_txn_commit : txn_ptr -> Z;
  e_txn_abort : txn_ptr -> Z;
  e_log : list Call
}.

Definition e_set_store (e : Eng) (s : gmap bytes bytes) : Eng :=
  mkEng s (e_fault e) (e_txn_begin e) (e_txn_commit e) (e_txn_abort e) (e_log e).

Definition e_record (e : Eng) (c : Call) : Eng :=
  mkEng (e_store e) (e_fault e) (e_txn_begin e) (e_txn_commit e) (e_txn_abort e)
    (e_log e ++ [c]).

(** [DB->get] with [DB_DBT_MALLOC]: the status and the returned data
    pointer ([None] is [NULL]). *)
Definition db_get (e : Eng) (db : db_ptr) (txn : option txn_ptr) (k : bytes)
    : Z * option bytes * Eng :=
  let e1 := e_record e (CGet db txn k) in
  match e_fault e with
  | Some err => (fault_code err, None, e1)
  | None =>
      match e_store e !! k with
      | Some v => (0, Some v, e1)
      | None => (DB_NOTFOUND, None, e1)
      end
  end.

(** [DB->put]; with [DB_NOOVERWRITE] an existing key is refused. *)
Definition db_put (e : Eng) (db : db_ptr) (txn : option txn_ptr) (k v : bytes)
    (flags : Z) : Z * Eng :=
  let e1 := e_record e (CPut db txn k v flags) in
  match e_fault e with
  | Some err => (fault_code err, e1)
  | None =>
      if (flags =? DB_NOOVERWRITE) && bool_decide (is_Some (e_store e !! k))
      then (DB_KEYEXIST, e1)
      else (0, e_set_store e1 (<[k:=v]> (e_store e)))
  end.

(** [DB->del]. *)
Definition db_del (e : Eng) (db : db_ptr) (txn : option txn_ptr) (k : bytes)
    : Z * Eng :=
  let e1 := e_record e (CDel db txn k) in
  match e_fault e with
  | Some err => (fault_code err, e1)
  | None =>
      match e_store e !! k with
      | Some _ => (0, e_set_store e1 (delete k (e_store e)))
      | None => (DB_NOTFOUND, e1)
      end
  end.

(** [DB->exists]. *)
Definition db_exists (e : Eng) (db : db_ptr) (txn : option txn_ptr) (k : bytes)
    : Z * Eng :=
  let e1 := e_record e (CExists db txn k) in
  match e_fault e with
  | Some err => (fault_code err, e1)
  | None =>
      match e_store e !! k with
      | Some _ => (0, e1)
      | None => (DB_NOTFOUND, e1)
      end
  end.

(** ** C++ [assert] *)

(** A computation either returns or stops the process at a failed
    assertion (with the assertion's message). *)
Inductive outcome (A : Type) :=
  | Ret (a : A)
  | AssertFail (msg : string).
Arguments Ret {A} _.
Arguments AssertFail {A} _.

Definition obind {A B} (m : outcome A) (k : A -> outcome B) : outcome B :=
  match m with
  | Ret a => k a
  | AssertFail s => AssertFail s
  end.

Notation "x <- m ;; k" := (obind m (fun x => k))
  (at level 100, m at next level, right associativity).

(** [assert(cond)]: a no-op when [NDEBUG] is defined. *)
Definition c_assert (NDEBUG : bool) (cond : bool) (msg : string) : outcome unit :=
  if NDEBUG then Ret tt else if cond then Ret tt else AssertFail msg.

(** ** [CDBEnv::TxnBegin] *)

(** [dbenv->txn_begin(dbenv, NULL, &ptxn, flags)]. *)
Definition env_txn_begin (e : Eng) (flags : Z) : Z * option txn_ptr * Eng :=
  let '(ret, ptxn) := e_txn_begin e flags in
  (ret, ptxn, e_record e (CTxnBegin flags)).

Definition CDBEnv_TxnBegin (flags : Z) (e : Eng) : option txn_ptr * Eng :=
  let '(ret, ptxn, e') := env_txn_begin e flags in
  match ptxn with
  | None => (None, e')
  | Some p => if negb (ret =? 0) then (None, e') else (Some p, e')
  end.

(** The default argument [flags=DB_TXN_WRITE_NOSYNC]. *)
Definition CDBEnv_TxnBegin_default (e : Eng) : option txn_ptr * Eng :=
  CDBEnv_TxnBegin DB_TXN_WRITE_NOSYNC e.

(** ** The accessor [CDB] *)

Record CDB := mkCDB {
  pdb : option db_ptr;
  strFile : string;
  activeTxn : option txn_ptr;
  fReadOnly : bool
}.

Definition set_activeTxn (a : CDB) (t : option txn_ptr) : CDB :=
  mkCDB (pdb a) (strFile a) t (fReadOnly a).

Section Records.
Context {K T : Type} (ck : Codec K) (ct : Codec T).

(** [CDB::Read]: the boolean result and the value written to [value]
    ([None]: [value] not assigned). *)
Definition Read (a : CDB) (key : K) (e : Eng) : bool * option T * Eng :=
  match pdb a with
  | None => (false, None, e)
  | Some db =>
      let '(ret, data, e') := db_get e db (activeTxn a) (encode ck key) in
      match data with
      | None => (false, None, e')
      | Some raw =>
          match decode ct raw with
          | None => (false, None, e')
          | Some v => (ret =? 0, Some v, e')
          end
      end
  end.

(** [CDB::Write]. *)
Definition Write (NDEBUG : bool) (a : CDB) (key : K) (value : T)
    (fOverwrite : bool) (e : Eng) : outcome (bool * Eng) :=
  match pdb a with
  | None => Ret (false, e)
  | Some db =>
      _ <- (if fReadOnly a
            then c_assert NDEBUG false "Write called on database in read-only mode"
            else Ret tt) ;;
      let '(ret, e') := db_put e db (activeTxn a) (encode ck key) (encode ct value)
                          (if fOverwrite then 0 else DB_NOOVERWRITE) in
      Ret (ret =? 0, e')
  end.

End Records.

Section Keys.
Context {K : Type} (ck : Codec K).

(** [CDB::Erase]. *)
Definition Erase (NDEBUG : bool) (a : CDB) (key : K) (e : Eng)
    : outcome (bool * Eng) :=
  match pdb a with
  | None => Ret (false, e)
  | Some db =>
      _ <- (if fReadOnly a
            then c_assert NDEBUG false "Erase called on database in read-only mode"
            else Ret tt) ;;
      let '(ret, e') := db_del e db (activeTxn a) (encode ck key) in
      Ret ((ret =? 0) || (ret =? DB_NOTFOUND), e')
  end.

(** [CDB::Exists]. *)
Definition Exists (a : CDB) (key : K) (e : Eng) : bool * Eng :=
  match pdb a with
  | None => (false, e)
  | Some db =>
      let '(ret, e') := db_exists e db (activeTxn a) (encode ck key) in
      (ret =? 0, e')
  end.

End Keys.

(** ** The reserved version record *)

Section Version.
Context (cs : Codec string) (ci : Codec Z).

(** [CDB::ReadVersion]: [nVersion = 0], then [Read("version", nVersion)];
    the result and [nVersion] afterwards. *)
Definition ReadVersion (a : CDB) (e : Eng) : bool * Z * Eng :=
  let nVersion := 0 in
  let '(ok, v, e') := Read cs ci a "version" e in
  (ok, default nVersion v, e').

(** [CDB::WriteVersion]: [Write("version", nVersion)] with the default
    [fOverwrite=true]. *)
Definition WriteVersion (NDEBUG : bool) (a : CDB) (nVersion : Z) (e : Eng)
    : outcome (bool * Eng) :=
  Write cs ci NDEBUG a "version" nVersion true e.

End Version.

(** ** Transactions of the accessor *)

Definition TxnBegin (a : CDB) (e : Eng) : bool * CDB * Eng :=
  if bool_decide (pdb a = None) || bool_decide (is_Some (activeTxn a))
  then (false, a, e)
  else
    let '(ptxn, e') := CDBEnv_TxnBegin_default e in
    match ptxn with
    | None => (false, a, e')
    | Some p => (true, set_activeTxn a (Some p), e')
    end.

Definition TxnCommit (a : CDB) (e : Eng) : bool * CDB * Eng :=
  match pdb a, activeTxn a with
  | Some _, Some t =>
      let ret := e_txn_commit e t in
      (ret =? 0, set_activeTxn a None, e_record e (CTxnCommit t))
  | _, _ => (false, a, e)
  end.

Definition TxnAbort (a : CDB) (e : Eng) : bool * CDB * Eng :=
  match pdb a, activeTxn a with
  | Some _, Some t =>
      let ret := e_txn_abort e t in
      (ret =? 0, set_activeTxn a None, e_record e (CTxnAbort t))
  | _, _ => (false, a, e)
  end.

(** ** [CDB::ReadAtCursor] *)

(** A [DBT]: data pointer ([None] is [NULL]; the list carries [size]) and
    flags. *)
Record DBT := mkDBT { dbt_data : option bytes; dbt_flags : Z }.

Definition is_set_flag (f : Z) : bool :=
  (f =? DB_SET) || (f =? DB_SET_RANGE) || (f =? DB_GET_BOTH) || (f =? DB_GET_BOTH_RANGE).

Definition is_get_both_flag (f : Z) : bool :=
  (f =? DB_GET_BOTH) || (f =? DB_GET_BOTH_RANGE).

(** The two [DBT]s handed to [pcursor->get] (lines 219-232). *)
Definition cursor_request (ssKey ssValue : bytes) (fFlags : Z) : DBT * DBT :=
  let datKey := mkDBT (if is_set_flag fFlags then Some ssKey else None) 0 in
  let datValue := mkDBT (if is_get_both_flag fFlags then Some ssValue else None) 0 in
  (mkDBT (dbt_data datKey) (Z.lor (dbt_flags datKey) DB_DBT_MALLOC),
   mkDBT (dbt_data datValue) (Z.lor (dbt_flags datValue) DB_DBT_MALLOC)).

Section Cursor.
(** A cursor [DBC*] of state [C]; [pcursor->get] fills in the [DBT]s. *)
Context {C : Type} (c_get : C -> DBT -> DBT -> Z -> Z * DBT * DBT * C).

(** Result: status, the two streams afterwards, the cursor afterwards. *)
Definition ReadAtCursor (pcursor : C) (ssKey ssValue : bytes) (fFlags : Z)
    : Z * bytes * bytes * C :=
  let '(datKey, datValue) := cursor_request ssKey ssValue fFlags in
  let '(ret, datKey', datValue', pcursor') := c_get pcursor datKey datValue fFlags in
  if negb (ret =? 0) then (ret, ssKey, ssValue, pcursor')
  else
    match dbt_data datKey', dbt_data datValue' with
    | Some k, Some v => (0, k, v, pcursor')
    | _, _ => (99999, ssKey, ssValue, pcursor')
    end.

End Cursor.

(** ** The environment's file-handle registry *)

(** Modelled from the spec: the bodies of [CDBEnv::CloseDb], of the [CDB]
    constructor and of [CDB::Close] are in db.cpp, absent here; db.h only
    declares [mapFileUseCount] and [mapDb]. The model follows the spec:
    "OpenFile(fileName): if the file is already open, increments its
    reference count and returns the existing handle; otherwise opens a new
    handle inside the environment, inserts it with reference count 1. Fails
    ... if the environment is not open or the engine rejects the open";
    "CloseFile(fileName): decrements reference count; when it reaches zero,
    closes the underlying handle and removes both map entries. No-op if the
    file is not currently tracked"; and "on accessor destruction the file
    handle's reference count is decremented and the handle closed if it
    reaches zero while the environment is not in mock/ephemeral mode". *)
Record DBEnv := mkDBEnv {
  fDbEnvInit : bool;
  fMockDb : bool;
  mapFileUseCount : gmap string Z;
  mapDb : gmap string db_ptr;
  next_db : db_ptr
}.

Definition use_count (env : DBEnv) (f : string) : Z :=
  default 0 (mapFileUseCount env !! f).

(** Modelled from the spec: [OpenFile]; [accept] is the engine's answer to
    the [DB->open] of a file not yet open. *)
Definition OpenFile (accept : bool) (f : string) (env : DBEnv)
    : option (db_ptr * DBEnv) :=
  if negb (fDbEnvInit env) then None
  else
    match mapDb env !! f with
    | Some h =>
        Some (h, mkDBEnv (fDbEnvInit env) (fMockDb env)
                   (<[f := use_count env f + 1]> (mapFileUseCount env))
                   (mapDb env) (next_db env))
    | None =>
        if accept
        then Some (next_db env,
                   mkDBEnv (fDbEnvInit env) (fMockDb env)
                     (<[f := 1]> (mapFileUseCount env))
                     (<[f := next_db env]> (mapDb env)) (next_db env + 1))
        else None
    end.

(** Modelled from the spec: [CloseFile] on accessor destruction. *)
Definition CloseFile (f : string) (env : DBEnv) : DBEnv :=
  match mapFileUseCount env !! f with
  | None => env
  | Some n =>
      if (n - 1 =? 0) && negb (fMockDb env)
      then mkDBEnv (fDbEnvInit env) (fMockDb env)
             (delete f (mapFileUseCount env)) (delete f (mapDb env)) (next_db env)
      else mkDBEnv (fDbEnvInit env) (fMockDb env)
             (<[f := n - 1]> (mapFileUseCount env)) (mapDb env) (next_db env)
  end.

(** The environment together with the files of the live accessors that
    opened successfully (one entry per accessor). *)
Record System := mkSystem { sys_env : DBEnv; sys_live : list string }.

Definition live_count (f : string) (l : list string) : Z :=
  Z.of_nat (length (filter (fun g => g = f) l)).

Definition env_init (mock : bool) : System :=
  mkSystem (mkDBEnv false mock ∅ ∅ 1) [].

Definition env_open (env : DBEnv) : DBEnv :=
  mkDBEnv true (fMockDb env) (mapFileUseCount env) (mapDb env) (next_db env).

(** Steps: open the environment (idempotent), construct an accessor (a
    failed open leaves everything as it was), destroy a live accessor. *)
Inductive sys_step : System -> System -> Prop :=
  | step_env_open s :
      sys_step s (mkSystem (env_open (sys_env s)) (sys_live s))
  | step_open s accept f h env' :
      OpenFile accept f (sys_env s) = Some (h, env') ->
      sys_step s (mkSystem env' (f :: sys_live s))
  | step_destroy env l1 f l2 :
      sys_step (mkSystem env (l1 ++ f :: l2)) (mkSystem (CloseFile f env) (l1 ++ l2)).

Inductive reachable : System -> Prop :=
  | reach_init mock : reachable (env_init mock)
  | reach_step s s' : reachable s -> sys_step s s' -> reachable s'.

(** ** Intervening record operations on raw byte keys *)

Definition raw_codec : Codec bytes := {| encode := fun b => b; decode := fun b => Some b |}.

Inductive RawOp :=
  | OpRead (k : bytes)
  | OpWrite (k v : bytes) (fOverwrite : bool)
  | OpErase (k : bytes)
  | OpExists (k : bytes).

Definition op_key (op : RawOp) : bytes :=
  match op with
  | OpRead k | OpWrite k _ _ | OpErase k | OpExists k => k
  end.

Definition run_op (NDEBUG : bool) (a : CDB) (op : RawOp) (e : Eng) : outcome Eng :=
  match op with
  | OpRead k => Ret (snd (Read raw_codec raw_codec a k e))
  | OpWrite k v ow => r <- Write raw_codec raw_codec NDEBUG a k v ow e ;; Ret (snd r)
  | OpErase k => r <- Erase raw_codec NDEBUG a k e ;; Ret (snd r)
  | OpExists k => Ret (snd (Exists raw_codec a k e))
  end.

Fixpoint run_ops (NDEBUG : bool) (a : CDB) (ops : list RawOp) (e : Eng) : outcome Eng :=
  match ops with
  | [] => Ret e
  | op :: ops' => e' <- run_op NDEBUG a op e ;; run_ops NDEBUG a ops' e'
  end.

(** The accessor invariant kept by the code: a transaction is only begun
    on an open handle. *)
Definition acc_wf (a : CDB) : Prop := pdb a = None -> activeTxn a = None.

(** The registry invariant: both maps have the same keys, a tracked
    file's count is the number of live accessors on it (at least 1 outside
    mock mode), and an untracked file has no live accessor. *)
Definition registry_inv (s : System) : Prop :=
  (forall f, is_Some (mapDb (sys_env s) !! f) <-> is_Some (mapFileUseCount (sys_env s) !! f)) /\
  (forall f n, mapFileUseCount (sys_env s) !! f = Some n ->
     n = live_count f (sys_live s) /\ (fMockDb (sys_env s) = false -> 1 <= n)) /\
  (forall f, mapFileUseCount (sys_env s) !! f = None -> live_count f (sys_live s) = 0).

(** A sequence of transaction calls on one accessor. *)
Inductive TxnOp := TBegin | TCommit | TAbort.

Fixpoint run_txn (ops : list TxnOp) (a : CDB) (e : Eng) : CDB * Eng :=
  match ops with
  | [] => (a, e)
  | op :: ops' =>
      let '(_, a', e') :=
        match op with
        | TBegin => TxnBegin a e
        | TCommit => TxnCommit a e
        | TAbort => TxnAbort a e
        end in
      run_txn ops' a' e'
  end.

(** ** Concrete values for tests *)

Definition b (s : string) : bytes := String.list_byte_of_string s.

Definition eng0 : Eng :=
  mkEng ∅ None (fun _ => (0, Some 7)) (fun _ => 0) (fun _ => 0) [].

Definition acc_rw : CDB := mkCDB (Some 1) "wallet.dat" None false.
Definition acc_ro : CDB := mkCDB (Some 1) "wallet.dat" None true.
Definition acc_closed : CDB := mkCDB None "wallet.dat" None false.

(** Test codecs in the layout of [CDataStream]: a 32-bit [int] as four
    little-endian bytes, a short [std::string] as a one-byte length and
    its characters. *)
Definition byte_of_Z (z : Z) : Byte.byte :=
  match Byte.of_N (Z.to_N (Z.land z 255)) with Some x => x | None => Byte.x00 end.

Definition int_codec : Codec Z := {|
  encode := fun n => map (fun i => byte_of_Z (Z.shiftr n (8 * i))) [0; 1; 2; 3];
  decode := fun bs =>
    match bs with
    | x0 :: x1 :: x2 :: x3 :: _ =>
        let u := Z.of_N (Byte.to_N x0) + 256 * Z.of_N (Byte.to_N x1)
                 + 65536 * Z.of_N (Byte.to_N x2) + 16777216 * Z.of_N (Byte.to_N x3) in
        Some (if 2147483648 <=? u then u - 4294967296 else u)
    | _ => None
    end |}.

Definition str_codec : Codec string := {|
  encode := fun s => byte_of_Z (Z.of_nat (String.length s)) :: String.list_byte_of_string s;
  decode := fun bs =>
    match bs with
    | [] => None
    | _ :: r => Some (String.string_of_list_byte r)
    end |}.

(** A mock environment after opening "wallet.dat" once. *)
Definition mock_env_open : DBEnv := env_open (sys_env (env_init true)).

Definition mock_env_one : DBEnv :=
  match OpenFile true "wallet.dat" mock_env_open with
  | Some (_, env) => env
  | None => mock_env_open
  end.

(** A non-mock environment after opening "wallet.dat" twice and
    "addr.dat" once. *)
Definition open_or_keep (f : string) (env : DBEnv) : DBEnv :=
  match OpenFile true f env with
  | Some (_, env') => env'
  | None => env
  end.

Definition reg_env_open : DBEnv := env_open (sys_env (env_init false)).

Definition reg_env3 : DBEnv :=
  open_or_keep "addr.dat" (open_or_keep "wallet.dat" (open_or_keep "wallet.dat" reg_env_open)).

Definition reg_sys3 : System :=
  mkSystem reg_env3 ["addr.dat"; "wallet.dat"; "wallet.dat"].

Definition mock_sys1 : System := mkSystem mock_env_one ["wallet.dat"].

(** A cursor that reports success but hands back no data. *)
Definition null_cursor (u : unit) (k v : DBT) (f : Z) : Z * DBT * DBT * unit :=
  (0, mkDBT None 0, mkDBT None 0, tt).

(** A cursor positioned on one record ("a", "x"). *)
Definition one_cursor (u : unit) (k v : DBT) (f : Z) : Z * DBT * DBT * unit :=
  (0, mkDBT (Some (b "a")) 0, mkDBT (Some (b "x")) 0, tt).

Example write_read_test :
  match Write raw_codec raw_codec false acc_rw (b "k") (b "v") true eng0 with
  | Ret (ok, e1) => (ok, fst (Read raw_codec raw_codec acc_rw (b "k") e1))
  | AssertFail _ => (false, (false, None))
  end = (true, (true, Some (b "v"))).
Proof. vm_compute. reflexivity. Qed.

Example erase_absent_test :
  match Erase raw_codec false acc_rw (b "k") eng0 with
  | Ret (ok, _) => ok
  | AssertFail _ => false
  end = true.
Proof. vm_compute. reflexivity. Qed.

Example cursor_test :
  ReadAtCursor one_cursor tt [] [] DB_NEXT = (0, b "a", b "x", tt).
Proof. reflexivity. Qed.

(** ** Proofs *)

Example reg_sys3_test :
  use_count reg_env3 "wallet.dat" = 2 /\ use_count reg_env3 "addr.dat" = 1 /\
  mapDb reg_env3 !! "wallet.dat" = Some 1 /\ mapDb reg_env3 !! "addr.dat" = Some 2 /\
  fMockDb reg_env3 = false.
Proof. vm_compute. repeat split. Qed.

Example mock_sys1_test :
  use_count mock_env_one "wallet.dat" = 1 /\ mapDb mock_env_one !! "wallet.dat" = Some 1 /\
  fMockDb mock_env_one = true.
Proof. vm_compute. repeat split. Qed.

Ltac unfold_engine :=
  unfold db_get, db_put, db_del, db_exists, e_record, e_set_store in *; simpl in *.

(** C9: on a null handle, [Read], [Write], [Erase] and [Exists] return
    false at once: the engine state, call log included, is untouched and
    no value is delivered. *)
Theorem null_handle_ops_noop {K T : Type} (ck : Codec K) (ct : Codec T)
    (NDEBUG : bool) (a : CDB) (key : K) (value : T) (fOverwrite : bool) (e : Eng) :
  pdb a = None ->
  Read ck ct a key e = (false, None, e) /\
  Write ck ct NDEBUG a key value fOverwrite e = Ret (false, e) /\
  Erase ck NDEBUG a key e = Ret (false, e) /\
  Exists ck a key e = (false, e).
Proof.
  intros Hnull. unfold Read, Write, Erase, Exists. rewrite Hnull.
  repeat split.
Qed.

Lemma null_handle_ops_noop_witness :
  pdb acc_closed = None /\
  Read raw_codec raw_codec acc_closed (b "k") eng0 = (false, None, eng0) /\
  Write raw_codec raw_codec false acc_closed (b "k") (b "v") true eng0 = Ret (false, eng0) /\
  Erase raw_codec false acc_closed (b "k") eng0 = Ret (false, eng0) /\
  Exists raw_codec acc_closed (b "k") eng0 = (false, eng0).
Proof.
  split; [reflexivity |].
  apply (null_handle_ops_noop raw_codec raw_codec false acc_closed (b "k") (b "v") true eng0).
  reflexivity.
Defined.

(** C10: if [pcursor->get] reports 0 but a [NULL] key or value data,
    [ReadAtCursor] returns 99999, a status that is neither success nor in
    the engine's error range, and both buffers are left as they were. *)
Theorem ReadAtCursor_null_data {C : Type}
    (c_get : C -> DBT -> DBT -> Z -> Z * DBT * DBT * C)
    (pc : C) (ssKey ssValue : bytes) (fFlags : Z) (rk rv dk dv : DBT) (pc' : C) :
  cursor_request ssKey ssValue fFlags = (rk, rv) ->
  c_get pc rk rv fFlags = (0, dk, dv, pc') ->
  dbt_data dk = None \/ dbt_data dv = None ->
  ReadAtCursor c_get pc ssKey ssValue fFlags = (99999, ssKey, ssValue, pc') /\
  99999 <> 0 /\ db_error_code 99999 = false.
Proof.
  intros Hreq Hget Hnull. unfold ReadAtCursor. rewrite Hreq, Hget. simpl.
  split; [| split; [lia | reflexivity]].
  destruct Hnull as [Hk | Hv].
  - rewrite Hk. reflexivity.
  - rewrite Hv. destruct (dbt_data dk); reflexivity.
Qed.

Lemma ReadAtCursor_null_data_witness :
  ReadAtCursor null_cursor tt [] [] DB_NEXT = (99999, [], [], tt) /\
  99999 <> 0 /\ db_error_code 99999 = false.
Proof.
  apply (ReadAtCursor_null_data null_cursor tt [] [] DB_NEXT
           (mkDBT None 16) (mkDBT None 16) (mkDBT None 0) (mkDBT None 0) tt).
  - reflexivity.
  - reflexivity.
  - left. reflexivity.
Defined.

(** C5: [CDBEnv::TxnBegin] issues exactly one [txn_begin] with the caller's
    flags (by default [DB_TXN_WRITE_NOSYNC]); it yields the transaction only
    when the engine answers 0 with a non-null pointer, [NULL] otherwise; its
    result is a plain value (no failure outcome) and the engine's records
    are untouched. *)
Theorem CDBEnv_TxnBegin_spec (flags : Z) (e : Eng) :
  snd (CDBEnv_TxnBegin flags e) = e_record e (CTxnBegin flags) /\
  fst (CDBEnv_TxnBegin flags e) =
    match e_txn_begin e flags with
    | (0, Some p) => Some p
    | _ => None
    end /\
  CDBEnv_TxnBegin_default e = CDBEnv_TxnBegin DB_TXN_WRITE_NOSYNC e.
Proof.
  unfold CDBEnv_TxnBegin, env_txn_begin.
  destruct (e_txn_begin e flags) as [[| r | r] [p |]]; simpl; repeat split.
Qed.

(** C4: [Read] reports absence (false, nothing assigned to [value]) both
    when the key is not stored and when the stored bytes do not decode. *)
Theorem Read_absent {K T : Type} (ck : Codec K) (ct : Codec T) (a : CDB)
    (key : K) (e : Eng) :
  (e_store e !! encode ck key = None \/
   exists raw, e_store e !! encode ck key = Some raw /\ decode ct raw = None) ->
  fst (Read ck ct a key e) = (false, None).
Proof.
  intros Hcase. unfold Read.
  destruct (pdb a) as [db |]; [| reflexivity].
  unfold_engine.
  destruct (e_fault e); [reflexivity |].
  destruct Hcase as [Hnone | [raw [Hraw Hdec]]].
  - rewrite Hnone. reflexivity.
  - rewrite Hraw. simpl. rewrite Hdec. reflexivity.
Qed.

Lemma Read_absent_witness :
  fst (Read raw_codec (Build_Codec Z (fun _ => []) (fun _ => None)) acc_rw (b "k")
         (e_set_store eng0 {[b "k" := b "junk"]})) = (false, None).
Proof.
  apply Read_absent. right. exists (b "junk"). split; reflexivity.
Defined.

(** The code keeps [acc_wf]: [TxnBegin], [TxnCommit] and [TxnAbort]
    preserve it (the record operations do not change the accessor). *)
Lemma TxnBegin_wf (a : CDB) (e : Eng) : acc_wf a -> acc_wf (snd (fst (TxnBegin a e))).
Proof.
  unfold acc_wf, TxnBegin. intros Hwf.
  case_eq (bool_decide (pdb a = None) || bool_decide (is_Some (activeTxn a)));
    intros Hc; simpl; [exact Hwf |].
  destruct (CDBEnv_TxnBegin_default e) as [[p |] e']; simpl; [| exact Hwf].
  intros Hn. apply orb_false_iff in Hc as [Hc _].
  apply bool_decide_eq_false_1 in Hc. contradiction.
Qed.

Lemma TxnCommit_wf (a : CDB) (e : Eng) : acc_wf a -> acc_wf (snd (fst (TxnCommit a e))).
Proof.
  intros Hwf. unfold TxnCommit.
  destruct (pdb a) eqn:Hp, (activeTxn a) eqn:Ht; simpl; unfold acc_wf in *; simpl;
    auto; congruence.
Qed.

Lemma TxnAbort_wf (a : CDB) (e : Eng) : acc_wf a -> acc_wf (snd (fst (TxnAbort a e))).
Proof.
  intros Hwf. unfold TxnAbort.
  destruct (pdb a) eqn:Hp, (activeTxn a) eqn:Ht; simpl; unfold acc_wf in *; simpl;
    auto; congruence.
Qed.

(** C2: at most one transaction per accessor. [TxnBegin] fails, changing
    nothing, when a transaction is active or the handle is null;
    [TxnCommit] and [TxnAbort] fail when none is active; and after either
    of them, whatever the engine answers, no transaction is active. *)
Theorem txn_discipline (a : CDB) (e : Eng) :
  acc_wf a ->
  ((is_Some (activeTxn a) \/ pdb a = None) -> TxnBegin a e = (false, a, e)) /\
  (activeTxn a = None ->
     TxnCommit a e = (false, a, e) /\ TxnAbort a e = (false, a, e)) /\
  activeTxn (snd (fst (TxnCommit a e))) = None /\
  activeTxn (snd (fst (TxnAbort a e))) = None.
Proof.
  unfold acc_wf. intros Hwf. split; [| split; [| split]].
  - intros Hcase. unfold TxnBegin.
    destruct Hcase as [Hact | Hnull].
    + rewrite (bool_decide_eq_true_2 _ Hact), orb_true_r. reflexivity.
    + rewrite Hnull. reflexivity.
  - intros Hnone. unfold TxnCommit, TxnAbort. rewrite Hnone.
    destruct (pdb a); split; reflexivity.
  - unfold TxnCommit. destruct (pdb a) eqn:Hp, (activeTxn a) eqn:Ht;
      simpl; auto. rewrite Ht. apply Hwf. reflexivity.
  - unfold TxnAbort. destruct (pdb a) eqn:Hp, (activeTxn a) eqn:Ht;
      simpl; auto. rewrite Ht. apply Hwf. reflexivity.
Qed.

Lemma txn_discipline_witness :
  ((is_Some (activeTxn (set_activeTxn acc_rw (Some 7))) \/
    pdb (set_activeTxn acc_rw (Some 7)) = None) ->
   TxnBegin (set_activeTxn acc_rw (Some 7)) eng0
   = (false, set_activeTxn acc_rw (Some 7), eng0)) /\
  (activeTxn (set_activeTxn acc_rw (Some 7)) = None ->
     TxnCommit (set_activeTxn acc_rw (Some 7)) eng0
     = (false, set_activeTxn acc_rw (Some 7), eng0) /\
     TxnAbort (set_activeTxn acc_rw (Some 7)) eng0
     = (false, set_activeTxn acc_rw (Some 7), eng0)) /\
  activeTxn (snd (fst (TxnCommit (set_activeTxn acc_rw (Some 7)) eng0))) = None /\
  activeTxn (snd (fst (TxnAbort (set_activeTxn acc_rw (Some 7)) eng0))) = None.
Proof.
  apply txn_discipline. unfold acc_wf. simpl. discriminate.
Defined.

(** C1, as stated, fails: on a read-only accessor with an open handle,
    [Write] in an assertion-enabled build stops at the failing [assert]
    instead of returning false. *)
Lemma Write_read_only_counterexample :
  ~ (forall (NDEBUG : bool) (a : CDB) (key value : bytes) (fOverwrite : bool) (e : Eng),
       fReadOnly a = true ->
       exists e', Write raw_codec raw_codec NDEBUG a key value fOverwrite e = Ret (false, e')).
Proof.
  intros Hclaim.
  destruct (Hclaim false acc_ro (b "k") (b "v") true eng0 eq_refl) as [e' He'].
  vm_compute in He'. discriminate He'.
Qed.

(** C1 (amended): the read-only flag never makes [Write] or [Erase] return
    false. With a null handle they return false before the flag is looked
    at; otherwise, in an assertion-enabled build they stop at the failing
    assertion, and in an [NDEBUG] build they behave exactly as on the same
    accessor made writable. *)
Theorem Write_Erase_read_only {K T : Type} (ck : Codec K) (ct : Codec T)
    (NDEBUG : bool) (a : CDB) (key : K) (value : T) (fOverwrite : bool) (e : Eng) :
  fReadOnly a = true ->
  Write ck ct NDEBUG a key value fOverwrite e =
    match pdb a with
    | None => Ret (false, e)
    | Some _ =>
        if NDEBUG
        then Write ck ct NDEBUG (mkCDB (pdb a) (strFile a) (activeTxn a) false)
               key value fOverwrite e
        else AssertFail "Write called on database in read-only mode"
    end /\
  Erase ck NDEBUG a key e =
    match pdb a with
    | None => Ret (false, e)
    | Some _ =>
        if NDEBUG
        then Erase ck NDEBUG (mkCDB (pdb a) (strFile a) (activeTxn a) false) key e
        else AssertFail "Erase called on database in read-only mode"
    end.
Proof.
  intros Hro. unfold Write, Erase. simpl. rewrite Hro.
  destruct (pdb a) as [db |]; [| split; reflexivity].
  destruct NDEBUG; simpl; split; reflexivity.
Qed.

Lemma Write_Erase_read_only_witness :
  Write raw_codec raw_codec false acc_ro (b "k") (b "v") true eng0
    = AssertFail "Write called on database in read-only mode" /\
  Erase raw_codec false acc_ro (b "k") eng0
    = AssertFail "Erase called on database in read-only mode".
Proof.
  apply (Write_Erase_read_only raw_codec raw_codec false acc_ro (b "k") (b "v") true eng0).
  reflexivity.
Defined.

(** [Erase] on an open handle that passes the read-only check is one
    [DB->del] whose status 0 or [DB_NOTFOUND] counts as success. *)
Lemma Erase_open {K : Type} (ck : Codec K) (NDEBUG : bool) (a : CDB) (db : db_ptr)
    (key : K) (e : Eng) :
  pdb a = Some db -> (fReadOnly a = false \/ NDEBUG = true) ->
  Erase ck NDEBUG a key e =
    Ret ((fst (db_del e db (activeTxn a) (encode ck key)) =? 0)
         || (fst (db_del e db (activeTxn a) (encode ck key)) =? DB_NOTFOUND),
         snd (db_del e db (activeTxn a) (encode ck key))).
Proof.
  intros Hp Hrw. unfold Erase. rewrite Hp.
  destruct Hrw as [Hrw | Hnd].
  - rewrite Hrw. simpl. destruct (db_del _ _ _ _). reflexivity.
  - rewrite Hnd. destruct (fReadOnly a); simpl; destruct (db_del _ _ _ _); reflexivity.
Qed.

Lemma db_del_fault (e : Eng) (db : db_ptr) (t : option txn_ptr) (k : bytes) :
  e_fault (snd (db_del e db t k)) = e_fault e.
Proof.
  unfold_engine. destruct (e_fault e); [reflexivity |].
  destruct (e_store e !! k); reflexivity.
Qed.

(** C3, as stated, fails: on a closed accessor (null handle) [Erase]
    returns false although the engine reported no error (it was not even
    called). *)
Lemma Erase_null_handle_counterexample :
  ~ (forall (NDEBUG : bool) (a : CDB) (key : bytes) (e e' : Eng) (r : bool),
       Erase raw_codec NDEBUG a key e = Ret (r, e') -> r = false ->
       exists f, e_fault e = Some f /\ fault_code f <> DB_NOTFOUND).
Proof.
  intros Hclaim.
  destruct (Hclaim false acc_closed (b "k") eng0 eng0 false eq_refl eq_refl)
    as [f [Hf _]].
  discriminate Hf.
Qed.

(** C3 (amended): on a null handle [Erase] returns false without calling
    the engine; on an open handle of a read-only accessor in an
    assertion-enabled build it stops at the failing assertion; otherwise it
    returns true whether the key was present (and is removed) or absent,
    and false exactly when the engine fails with a status other than
    [DB_NOTFOUND]; and, when the engine does not fail, erasing the same key
    again returns true and leaves the records as the first erase did. *)
Theorem Erase_idempotent {K : Type} (ck : Codec K) (NDEBUG : bool) (a : CDB)
    (key : K) (e : Eng) :
  (pdb a = None -> Erase ck NDEBUG a key e = Ret (false, e)) /\
  (is_Some (pdb a) -> fReadOnly a = true -> NDEBUG = false ->
     Erase ck NDEBUG a key e = AssertFail "Erase called on database in read-only mode") /\
  (is_Some (pdb a) -> (fReadOnly a = false \/ NDEBUG = true) ->
     exists r e1,
       Erase ck NDEBUG a key e = Ret (r, e1) /\
       (r = false <-> exists f, e_fault e = Some f /\ fault_code f <> DB_NOTFOUND) /\
       (e_fault e = None -> e_store e1 = delete (encode ck key) (e_store e)) /\
       (e_fault e1 = None ->
          exists e2, Erase ck NDEBUG a key e1 = Ret (true, e2) /\ e_store e2 = e_store e1)).
Proof.
  split; [| split].
  - intros Hn. unfold Erase. rewrite Hn. reflexivity.
  - intros [db Hp] Hro Hnd. unfold Erase. rewrite Hp, Hro, Hnd. reflexivity.
  - intros [db Hp] Hrw.
    rewrite (Erase_open ck NDEBUG a db key e Hp Hrw).
    eexists _, _. split; [reflexivity |].
    rewrite db_del_fault.
    split; [| split].
    + unfold db_del, e_record, e_set_store. simpl.
      destruct (e_fault e) as [f |].
      * simpl. split.
        -- intros Hr. exists f. split; [reflexivity |].
           intros Heq. rewrite Heq in Hr. discriminate Hr.
        -- intros [f' [Hf' Hne]]. injection Hf' as <-.
           destruct f as [p | p]; [| reflexivity].
           apply Z.eqb_neq in Hne. exact Hne.
      * destruct (e_store e !! encode ck key); simpl;
          (split; [discriminate | intros [f [Hf' _]]; discriminate Hf']).
    + intros Hf. unfold db_del, e_record, e_set_store. rewrite Hf. simpl.
      destruct (e_store e !! encode ck key) eqn:Hk; simpl; [reflexivity |].
      symmetry. apply delete_id. exact Hk.
    + intros Hf.
      rewrite (Erase_open ck NDEBUG a db key _ Hp Hrw).
      assert (Hgone : e_store (snd (db_del e db (activeTxn a) (encode ck key)))
                        !! encode ck key = None).
      { unfold db_del, e_record, e_set_store. rewrite Hf. simpl.
        destruct (e_store e !! encode ck key) eqn:Hk; simpl;
          [apply lookup_delete_eq | exact Hk]. }
      assert (Hf1 : e_fault (snd (db_del e db (activeTxn a) (encode ck key))) = None).
      { rewrite db_del_fault. exact Hf. }
      revert Hgone Hf1.
      generalize (snd (db_del e db (activeTxn a) (encode ck key))) as e1.
      intros e1 Hgone Hf1. unfold_engine. rewrite Hf1, Hgone. simpl.
      eexists. split; reflexivity.
Qed.

Lemma Erase_idempotent_witness :
  Erase raw_codec false acc_closed (b "k") eng0 = Ret (false, eng0) /\
  Erase raw_codec false acc_ro (b "k") eng0
    = AssertFail "Erase called on database in read-only mode" /\
  exists r e1,
    Erase raw_codec false acc_rw (b "k") (e_set_store eng0 {[b "k" := b "v"]}) = Ret (r, e1) /\
    (r = false <-> exists f, e_fault (e_set_store eng0 {[b "k" := b "v"]}) = Some f /\
                            fault_code f <> DB_NOTFOUND) /\
    (e_fault (e_set_store eng0 {[b "k" := b "v"]}) = None ->
     e_store e1 = delete (b "k") (e_store (e_set_store eng0 {[b "k" := b "v"]}))) /\
    (e_fault e1 = None ->
       exists e2, Erase raw_codec false acc_rw (b "k") e1 = Ret (true, e2) /\ e_store e2 = e_store e1).
Proof.
  split; [| split].
  - apply (Erase_idempotent raw_codec false acc_closed (b "k") eng0). reflexivity.
  - apply (Erase_idempotent raw_codec false acc_ro (b "k") eng0).
    + exists 1. reflexivity.
    + reflexivity.
    + reflexivity.
  - apply (Erase_idempotent raw_codec false acc_rw (b "k") (e_set_store eng0 {[b "k" := b "v"]})).
    + exists 1. reflexivity.
    + left. reflexivity.
Defined.

(** Framing: every engine record call keeps the failure state, and the
    records of every key other than the one it names. *)
Lemma db_get_frame (e e' : Eng) (db : db_ptr) (t : option txn_ptr) (k : bytes)
    (ret : Z) (d : option bytes) :
  db_get e db t k = (ret, d, e') -> e_fault e' = e_fault e /\ e_store e' = e_store e.
Proof.
  unfold_engine. destruct (e_fault e); [| destruct (e_store e !! k)];
    intros H; injection H as <- <- <-; split; reflexivity.
Qed.

Lemma db_put_frame (e e' : Eng) (db : db_ptr) (t : option txn_ptr) (k v : bytes)
    (fl ret : Z) :
  db_put e db t k v fl = (ret, e') ->
  e_fault e' = e_fault e /\ forall k', k' <> k -> e_store e' !! k' = e_store e !! k'.
Proof.
  unfold_engine. destruct (e_fault e); [| destruct (_ && _)];
    intros H; injection H as <- <-; simpl; split; auto.
  intros k' Hne. apply lookup_insert_ne. congruence.
Qed.

Lemma db_del_frame (e e' : Eng) (db : db_ptr) (t : option txn_ptr) (k : bytes) (ret : Z) :
  db_del e db t k = (ret, e') ->
  e_fault e' = e_fault e /\ forall k', k' <> k -> e_store e' !! k' = e_store e !! k'.
Proof.
  unfold_engine. destruct (e_fault e); [| destruct (e_store e !! k)];
    intros H; injection H as <- <-; simpl; split; auto.
  intros k' Hne. apply lookup_delete_ne. congruence.
Qed.

Lemma db_exists_frame (e e' : Eng) (db : db_ptr) (t : option txn_ptr) (k : bytes) (ret : Z) :
  db_exists e db t k = (ret, e') -> e_fault e' = e_fault e /\ e_store e' = e_store e.
Proof.
  unfold_engine. destruct (e_fault e); [| destruct (e_store e !! k)];
    intros H; injection H as <- <-; split; reflexivity.
Qed.

Lemma run_op_frame (NDEBUG : bool) (a : CDB) (op : RawOp) (e e' : Eng) :
  run_op NDEBUG a op e = Ret e' ->
  e_fault e' = e_fault e /\ forall k', k' <> op_key op -> e_store e' !! k' = e_store e !! k'.
Proof.
  destruct op as [k | k v ow | k | k]; simpl.
  - unfold Read. change (encode raw_codec k) with k.
    destruct (pdb a) as [db |]; [| intros H; injection H as <-; auto].
    destruct (db_get e db (activeTxn a) k) as [[ret d] e1] eqn:Hg.
    apply db_get_frame in Hg as [Hf Hs].
    destruct d as [raw |]; [destruct (decode raw_codec raw) |];
      intros H; injection H as <-; simpl; rewrite Hf, Hs; auto.
  - unfold Write. destruct (pdb a) as [db |]; [| intros H; injection H as <-; auto].
    destruct (fReadOnly a), NDEBUG; simpl; try discriminate;
      destruct (db_put e db _ _ _ _) as [ret e1] eqn:Hp; simpl;
      intros H; injection H as <-; exact (db_put_frame _ _ _ _ _ _ _ _ Hp).
  - unfold Erase. destruct (pdb a) as [db |]; [| intros H; injection H as <-; auto].
    destruct (fReadOnly a), NDEBUG; simpl; try discriminate;
      destruct (db_del e db _ _) as [ret e1] eqn:Hd; simpl;
      intros H; injection H as <-; exact (db_del_frame _ _ _ _ _ _ Hd).
  - unfold Exists. destruct (pdb a) as [db |]; [| intros H; injection H as <-; auto].
    destruct (db_exists e db _ _) as [ret e1] eqn:Hx.
    apply db_exists_frame in Hx as [Hf Hs].
    intros H; injection H as <-; simpl; rewrite Hf, Hs; auto.
Qed.

Lemma run_ops_frame (NDEBUG : bool) (a : CDB) (ops : list RawOp) (k : bytes) :
  Forall (fun op => op_key op <> k) ops ->
  forall e e', run_ops NDEBUG a ops e = Ret e' ->
  e_fault e' = e_fault e /\ e_store e' !! k = e_store e !! k.
Proof.
  induction 1 as [| op ops Hop Hops IH]; intros e e' Hrun; simpl in Hrun.
  - injection Hrun as <-. auto.
  - destruct (run_op NDEBUG a op e) as [e1 |] eqn:H1; simpl in Hrun; [| discriminate].
    apply run_op_frame in H1 as [Hf1 Hs1].
    destruct (IH e1 e' Hrun) as [Hf2 Hs2].
    rewrite Hf2, Hs2, Hf1. split; [reflexivity |]. apply Hs1. congruence.
Qed.

(** A [Write] that returned true went through the engine without failure
    and stored the encoded value under the encoded key. *)
Lemma Write_true_stored {K T : Type} (ck : Codec K) (ct : Codec T) (NDEBUG : bool)
    (a : CDB) (key : K) (value : T) (ow : bool) (e e1 : Eng) :
  Write ck ct NDEBUG a key value ow e = Ret (true, e1) ->
  e_fault e1 = None /\ e_store e1 !! encode ck key = Some (encode ct value).
Proof.
  unfold Write. destruct (pdb a) as [db |]; [| discriminate].
  assert (Hput : forall fl ret e',
            db_put e db (activeTxn a) (encode ck key) (encode ct value) fl = (ret, e') ->
            (ret =? 0) = true ->
            e_fault e' = None /\ e_store e' !! encode ck key = Some (encode ct value)).
  { intros fl ret e' H Hret. unfold_engine.
    destruct (e_fault e) as [[p | p] |]; [injection H as <- _; discriminate Hret
                                        | injection H as <- _; discriminate Hret |].
    destruct (_ && _); injection H as <- <-; [discriminate Hret |].
    simpl. split; [reflexivity | apply lookup_insert_eq]. }
  destruct (fReadOnly a), NDEBUG; simpl; try discriminate;
    destruct (db_put e db _ _ _ _) as [ret e'] eqn:Hp;
    intros H; injection H as Hret <-; exact (Hput _ _ _ Hp Hret).
Qed.

(** C6: after a [Write] of [key]/[value] that returned true, and any
    sequence of completed reads, writes, erases and existence checks on
    other keys through the same accessor, [Read] of [key] returns true and
    delivers [value], provided [value] round-trips through its codec. *)
Theorem Write_then_Read {K T : Type} (ck : Codec K) (ct : Codec T) (NDEBUG : bool)
    (a : CDB) (key : K) (value : T) (ow : bool) (e e1 e2 : Eng) (ops : list RawOp) :
  decode ct (encode ct value) = Some value ->
  Write ck ct NDEBUG a key value ow e = Ret (true, e1) ->
  Forall (fun op => op_key op <> encode ck key) ops ->
  run_ops NDEBUG a ops e1 = Ret e2 ->
  fst (Read ck ct a key e2) = (true, Some value).
Proof.
  intros Hrt Hw Hops Hrun.
  destruct (Write_true_stored ck ct NDEBUG a key value ow e e1 Hw) as [Hf1 Hs1].
  destruct (run_ops_frame NDEBUG a ops (encode ck key) Hops e1 e2 Hrun) as [Hf2 Hs2].
  assert (Hdb : pdb a <> None).
  { intros Hn. unfold Write in Hw. rewrite Hn in Hw. discriminate. }
  unfold Read. destruct (pdb a) as [db |]; [| congruence].
  unfold_engine. rewrite Hf2, Hf1, Hs2, Hs1. simpl. rewrite Hrt. reflexivity.
Qed.

Lemma Write_then_Read_witness :
  exists e1 e2,
    Write raw_codec raw_codec false acc_rw (b "k") (b "v") true eng0 = Ret (true, e1) /\
    run_ops false acc_rw [OpWrite (b "o") (b "w") true; OpRead (b "o"); OpErase (b "p")] e1
      = Ret e2 /\
    fst (Read raw_codec raw_codec acc_rw (b "k") e2) = (true, Some (b "v")).
Proof.
  eexists _, _. split; [reflexivity |]. split; [reflexivity |].
  eapply (Write_then_Read raw_codec raw_codec false acc_rw (b "k") (b "v") true eng0
           _ _ [OpWrite (b "o") (b "w") true; OpRead (b "o"); OpErase (b "p")]).
  - reflexivity.
  - reflexivity.
  - repeat constructor; simpl; discriminate.
  - reflexivity.
Defined.

(** ** Cursor reads *)

Lemma is_set_flag_spec (f : Z) :
  is_set_flag f = bool_decide (f ∈ [DB_SET; DB_SET_RANGE; DB_GET_BOTH; DB_GET_BOTH_RANGE]).
Proof.
  unfold is_set_flag.
  destruct (Z.eqb_spec f DB_SET), (Z.eqb_spec f DB_SET_RANGE),
    (Z.eqb_spec f DB_GET_BOTH), (Z.eqb_spec f DB_GET_BOTH_RANGE); simpl; symmetry;
    first [apply bool_decide_eq_true_2 | apply bool_decide_eq_false_2];
    rewrite !elem_of_cons, elem_of_nil; tauto.
Qed.

Lemma is_get_both_flag_spec (f : Z) :
  is_get_both_flag f = bool_decide (f ∈ [DB_GET_BOTH; DB_GET_BOTH_RANGE]).
Proof.
  unfold is_get_both_flag.
  destruct (Z.eqb_spec f DB_GET_BOTH), (Z.eqb_spec f DB_GET_BOTH_RANGE); simpl; symmetry;
    first [apply bool_decide_eq_true_2 | apply bool_decide_eq_false_2];
    rewrite !elem_of_cons, elem_of_nil; tauto.
Qed.

(** C7, as stated, fails: when the engine's cursor get reports status 0
    with no data, [ReadAtCursor] returns 99999, not the engine's status. *)
Lemma ReadAtCursor_status_counterexample :
  ~ (forall (c_get : unit -> DBT -> DBT -> Z -> Z * DBT * DBT * unit)
            (pc : unit) (ssKey ssValue : bytes) (fFlags : Z),
       fst (fst (fst (ReadAtCursor c_get pc ssKey ssValue fFlags)))
       = fst (fst (fst (c_get pc (fst (cursor_request ssKey ssValue fFlags))
                             (snd (cursor_request ssKey ssValue fFlags)) fFlags)))).
Proof.
  intros Hclaim. specialize (Hclaim null_cursor tt [] [] DB_NEXT).
  vm_compute in Hclaim. discriminate Hclaim.
Qed.

(** C7 (amended): the key stream is handed to the engine as seek target
    exactly for [DB_SET], [DB_SET_RANGE], [DB_GET_BOTH] and
    [DB_GET_BOTH_RANGE], the value stream exactly for the two get-both
    flags (so neither for [DB_NEXT]); a non-zero engine status is returned
    as it is with the streams untouched; on status 0 with both data present
    both streams are overwritten with the record and 0 is returned; on
    status 0 with a missing key or value the result is 99999. *)
Theorem ReadAtCursor_protocol {C : Type}
    (c_get : C -> DBT -> DBT -> Z -> Z * DBT * DBT * C)
    (pc : C) (ssKey ssValue : bytes) (fFlags : Z) (rk rv dk dv : DBT) (ret : Z) (pc' : C) :
  cursor_request ssKey ssValue fFlags = (rk, rv) ->
  c_get pc rk rv fFlags = (ret, dk, dv, pc') ->
  dbt_data rk = (if bool_decide (fFlags ∈ [DB_SET; DB_SET_RANGE; DB_GET_BOTH; DB_GET_BOTH_RANGE])
                 then Some ssKey else None) /\
  dbt_data rv = (if bool_decide (fFlags ∈ [DB_GET_BOTH; DB_GET_BOTH_RANGE])
                 then Some ssValue else None) /\
  (ret <> 0 -> ReadAtCursor c_get pc ssKey ssValue fFlags = (ret, ssKey, ssValue, pc')) /\
  (forall k v, ret = 0 -> dbt_data dk = Some k -> dbt_data dv = Some v ->
     ReadAtCursor c_get pc ssKey ssValue fFlags = (0, k, v, pc')) /\
  (ret = 0 -> dbt_data dk = None \/ dbt_data dv = None ->
     ReadAtCursor c_get pc ssKey ssValue fFlags = (99999, ssKey, ssValue, pc')).
Proof.
  intros Hreq Hget.
  split; [| split].
  - unfold cursor_request in Hreq. injection Hreq as <- _. simpl.
    rewrite is_set_flag_spec. reflexivity.
  - unfold cursor_request in Hreq. injection Hreq as _ <-. simpl.
    rewrite is_get_both_flag_spec. reflexivity.
  - unfold ReadAtCursor. rewrite Hreq, Hget. split; [| split].
    + intros Hne. apply Z.eqb_neq in Hne. rewrite Hne. reflexivity.
    + intros k v -> Hk Hv. simpl. rewrite Hk, Hv. reflexivity.
    + intros -> [Hk | Hv]; simpl.
      * rewrite Hk. reflexivity.
      * rewrite Hv. destruct (dbt_data dk); reflexivity.
Qed.

Lemma ReadAtCursor_protocol_witness :
  dbt_data (mkDBT (Some (b "a")) 16)
    = (if bool_decide (DB_SET ∈ [DB_SET; DB_SET_RANGE; DB_GET_BOTH; DB_GET_BOTH_RANGE])
       then Some (b "a") else None) /\
  dbt_data (mkDBT None 16)
    = (if bool_decide (DB_SET ∈ [DB_GET_BOTH; DB_GET_BOTH_RANGE]) then Some [] else None) /\
  (0 <> 0 -> ReadAtCursor one_cursor tt (b "a") [] DB_SET = (0, b "a", [], tt)) /\
  (forall k v, 0 = 0 -> dbt_data (mkDBT (Some (b "a")) 0) = Some k ->
     dbt_data (mkDBT (Some (b "x")) 0) = Some v ->
     ReadAtCursor one_cursor tt (b "a") [] DB_SET = (0, k, v, tt)) /\
  (0 = 0 -> dbt_data (mkDBT (Some (b "a")) 0) = None \/ dbt_data (mkDBT (Some (b "x")) 0) = None ->
     ReadAtCursor one_cursor tt (b "a") [] DB_SET = (99999, b "a", [], tt)).
Proof.
  apply (ReadAtCursor_protocol one_cursor tt (b "a") [] DB_SET).
  - reflexivity.
  - reflexivity.
Defined.

(** ** The file-handle registry *)

Lemma live_count_cons (f g : string) (l : list string) :
  live_count f (g :: l) = (if decide (g = f) then 1 else 0) + live_count f l.
Proof. unfold live_count. rewrite filter_cons. destruct (decide (g = f)); simpl; lia. Qed.

Lemma live_count_app (f : string) (l1 l2 : list string) :
  live_count f (l1 ++ l2) = live_count f l1 + live_count f l2.
Proof. unfold live_count. rewrite filter_app, length_app. lia. Qed.

Lemma live_count_nonneg (f : string) (l : list string) : 0 <= live_count f l.
Proof. unfold live_count. lia. Qed.


Lemma registry_inv_init (mock : bool) : registry_inv (env_init mock).
Proof.
  unfold registry_inv, env_init. simpl. split; [| split].
  - intros f. rewrite !lookup_empty. split; intros [x Hx]; discriminate.
  - intros f n H. rewrite lookup_empty in H. discriminate.
  - intros f _. reflexivity.
Qed.

Lemma registry_inv_open (s : System) (accept : bool) (f : string) (h : db_ptr) (env' : DBEnv) :
  registry_inv s -> OpenFile accept f (sys_env s) = Some (h, env') ->
  registry_inv (mkSystem env' (f :: sys_live s)).
Proof.
  destruct s as [env l]. unfold registry_inv, OpenFile. simpl.
  intros [Hkeys [Hcnt Hnone]] Hopen.
  destruct (fDbEnvInit env); [| discriminate]. simpl in Hopen.
  destruct (mapDb env !! f) as [h0 |] eqn:Hdb.
  - injection Hopen as <- <-. simpl.
    assert (Hin : is_Some (mapFileUseCount env !! f)) by (apply Hkeys; rewrite Hdb; eauto).
    destruct Hin as [n Hn].
    destruct (Hcnt f n Hn) as [Hn_eq Hn_pos].
    unfold use_count. rewrite Hn. simpl.
    split; [| split].
    + intros g. destruct (decide (g = f)) as [-> | Hne].
      * rewrite lookup_insert_eq, Hdb. split; eauto.
      * rewrite lookup_insert_ne by congruence. apply Hkeys.
    + intros g m Hg. rewrite live_count_cons.
      destruct (decide (g = f)) as [-> | Hne].
      * rewrite lookup_insert_eq in Hg. injection Hg as <-.
        rewrite decide_True by reflexivity. split; [lia |].
        intros _. pose proof (live_count_nonneg f l). lia.
      * rewrite lookup_insert_ne in Hg by congruence.
        rewrite decide_False by congruence.
        destruct (Hcnt g m Hg) as [Hm Hp]. split; [lia | exact Hp].
    + intros g Hg. rewrite live_count_cons.
      destruct (decide (g = f)) as [-> | Hne].
      * rewrite lookup_insert_eq in Hg. discriminate.
      * rewrite lookup_insert_ne in Hg by congruence.
        rewrite decide_False by congruence. rewrite (Hnone g Hg). reflexivity.
  - destruct accept; [| discriminate]. injection Hopen as <- <-. simpl.
    assert (Hc : mapFileUseCount env !! f = None).
    { destruct (mapFileUseCount env !! f) eqn:Hc; [| reflexivity].
      exfalso. assert (Hs : is_Some (mapDb env !! f)) by (apply Hkeys; rewrite Hc; eauto).
      rewrite Hdb in Hs. destruct Hs as [? Hs]. discriminate. }
    pose proof (Hnone f Hc) as Hz.
    split; [| split].
    + intros g. destruct (decide (g = f)) as [-> | Hne].
      * rewrite !lookup_insert_eq. split; eauto.
      * rewrite !lookup_insert_ne by congruence. apply Hkeys.
    + intros g m Hg. rewrite live_count_cons.
      destruct (decide (g = f)) as [-> | Hne].
      * rewrite lookup_insert_eq in Hg. injection Hg as <-.
        rewrite decide_True by reflexivity. split; lia.
      * rewrite lookup_insert_ne in Hg by congruence.
        rewrite decide_False by congruence.
        destruct (Hcnt g m Hg) as [Hm Hp]. split; [lia | exact Hp].
    + intros g Hg. rewrite live_count_cons.
      destruct (decide (g = f)) as [-> | Hne].
      * rewrite lookup_insert_eq in Hg. discriminate.
      * rewrite lookup_insert_ne in Hg by congruence.
        rewrite decide_False by congruence. rewrite (Hnone g Hg). reflexivity.
Qed.

Lemma live_count_mid (f g : string) (l1 l2 : list string) :
  live_count g (l1 ++ f :: l2) = (if decide (f = g) then 1 else 0) + live_count g (l1 ++ l2).
Proof. rewrite !live_count_app, live_count_cons. lia. Qed.

Lemma registry_inv_destroy (env : DBEnv) (l1 : list string) (f : string) (l2 : list string) :
  registry_inv (mkSystem env (l1 ++ f :: l2)) ->
  registry_inv (mkSystem (CloseFile f env) (l1 ++ l2)).
Proof.
  unfold registry_inv. simpl. intros [Hkeys [Hcnt Hnone]].
  assert (Hn : exists n, mapFileUseCount env !! f = Some n).
  { destruct (mapFileUseCount env !! f) as [n |] eqn:Hc; [eauto |].
    exfalso. pose proof (Hnone f Hc) as Hz. rewrite live_count_mid, decide_True in Hz
      by reflexivity. pose proof (live_count_nonneg f (l1 ++ l2)). lia. }
  destruct Hn as [n Hn].
  destruct (Hcnt f n Hn) as [Hn_eq Hn_pos].
  rewrite live_count_mid, decide_True in Hn_eq by reflexivity.
  unfold CloseFile. rewrite Hn.
  destruct ((n - 1 =? 0) && negb (fMockDb env)) eqn:Hclose; simpl.
  - apply andb_true_iff in Hclose as [Hz _]. apply Z.eqb_eq in Hz.
    split; [| split].
    + intros g. destruct (decide (g = f)) as [-> | Hne].
      * rewrite !lookup_delete_eq. reflexivity.
      * rewrite !lookup_delete_ne by congruence. apply Hkeys.
    + intros g m Hg. destruct (decide (g = f)) as [-> | Hne].
      * rewrite lookup_delete_eq in Hg. discriminate.
      * rewrite lookup_delete_ne in Hg by congruence.
        destruct (Hcnt g m Hg) as [Hm Hp].
        rewrite live_count_mid, decide_False in Hm by congruence. split; [lia | exact Hp].
    + intros g Hg. destruct (decide (g = f)) as [-> | Hne]; [lia |].
      rewrite lookup_delete_ne in Hg by congruence.
      pose proof (Hnone g Hg) as Hz'.
      rewrite live_count_mid, decide_False in Hz' by congruence. lia.
  - split; [| split].
    + intros g. destruct (decide (g = f)) as [-> | Hne].
      * rewrite lookup_insert_eq. split; [eauto |]. intros _. apply Hkeys. rewrite Hn. eauto.
      * rewrite lookup_insert_ne by congruence. apply Hkeys.
    + intros g m Hg. destruct (decide (g = f)) as [-> | Hne].
      * rewrite lookup_insert_eq in Hg. injection Hg as <-. split; [lia |].
        intros Hmock. rewrite Hmock, andb_true_r in Hclose. apply Z.eqb_neq in Hclose.
        specialize (Hn_pos Hmock). lia.
      * rewrite lookup_insert_ne in Hg by congruence.
        destruct (Hcnt g m Hg) as [Hm Hp].
        rewrite live_count_mid, decide_False in Hm by congruence. split; [lia | exact Hp].
    + intros g Hg. destruct (decide (g = f)) as [-> | Hne].
      * rewrite lookup_insert_eq in Hg. discriminate.
      * rewrite lookup_insert_ne in Hg by congruence.
        pose proof (Hnone g Hg) as Hz'.
        rewrite live_count_mid, decide_False in Hz' by congruence. lia.
Qed.

Lemma registry_inv_reachable (s : System) : reachable s -> registry_inv s.
Proof.
  induction 1 as [mock | s s' Hreach IH Hstep].
  - apply registry_inv_init.
  - destruct Hstep as [s0 | s0 accept f h env' Hopen | env l1 f l2].
    + destruct s0 as [env l]. exact IH.
    + exact (registry_inv_open s0 accept f h env' IH Hopen).
    + exact (registry_inv_destroy env l1 f l2 IH).
Qed.


Lemma reachable_mock_one : reachable mock_sys1.
Proof.
  apply (reach_step (mkSystem mock_env_open [])).
  - apply (reach_step (env_init true)); [apply reach_init | apply step_env_open].
  - apply (step_open (mkSystem mock_env_open []) true "wallet.dat" 1).
    reflexivity.
Qed.

Lemma reachable_reg_three : reachable reg_sys3.
Proof.
  assert (R0 : reachable (mkSystem reg_env_open [])).
  { apply (reach_step (env_init false)); [apply reach_init | apply step_env_open]. }
  assert (R1 : reachable (mkSystem (open_or_keep "wallet.dat" reg_env_open) ["wallet.dat"])).
  { apply (reach_step _ _ R0).
    apply (step_open (mkSystem reg_env_open []) true "wallet.dat" 1). reflexivity. }
  assert (R2 : reachable (mkSystem (open_or_keep "wallet.dat" (open_or_keep "wallet.dat" reg_env_open))
                            ["wallet.dat"; "wallet.dat"])).
  { apply (reach_step _ _ R1).
    apply (step_open (mkSystem (open_or_keep "wallet.dat" reg_env_open) ["wallet.dat"])
             true "wallet.dat" 1). reflexivity. }
  apply (reach_step _ _ R2).
  apply (step_open (mkSystem (open_or_keep "wallet.dat" (open_or_keep "wallet.dat" reg_env_open))
           ["wallet.dat"; "wallet.dat"]) true "addr.dat" 2). reflexivity.
Qed.

(** C8, as stated, fails in mock mode: after the only accessor of
    "wallet.dat" is destroyed, the file keeps its handle in [mapDb] with a
    reference count of 0. *)
Lemma registry_mock_counterexample :
  ~ (forall s, reachable s ->
       forall f, is_Some (mapDb (sys_env s) !! f) <-> 1 <= use_count (sys_env s) f).
Proof.
  intros Hclaim.
  assert (R3 : reachable (mkSystem (CloseFile "wallet.dat" mock_env_one) [])).
  { apply (reach_step (mkSystem mock_env_one ([] ++ "wallet.dat" :: []))).
    { exact reachable_mock_one. }
    apply (step_destroy mock_env_one [] "wallet.dat" []). }
  destruct (Hclaim _ R3 "wallet.dat") as [Hiff _].
  assert (Hin : is_Some (mapDb (CloseFile "wallet.dat" mock_env_one) !! "wallet.dat")).
  { vm_compute. eauto. }
  specialize (Hiff Hin). vm_compute in Hiff. apply Hiff. reflexivity.
Qed.

(** C8 (amended): in every reachable state the reference count of a file
    is the number of live accessors that opened it; outside mock mode a
    file has a handle in [mapDb] iff its count is at least 1, and
    destroying the last accessor of a file removes its handle; in mock
    mode destroying the last accessor leaves the handle in [mapDb] with a
    count of 0. *)
Theorem registry_refcount (s : System) :
  reachable s ->
  (forall f, use_count (sys_env s) f = live_count f (sys_live s)) /\
  (fMockDb (sys_env s) = false ->
     forall f, is_Some (mapDb (sys_env s) !! f) <-> 1 <= use_count (sys_env s) f) /\
  (fMockDb (sys_env s) = false ->
     forall f l1 l2, sys_live s = l1 ++ f :: l2 -> live_count f (l1 ++ l2) = 0 ->
       mapDb (CloseFile f (sys_env s)) !! f = None) /\
  (fMockDb (sys_env s) = true ->
     forall f l1 l2, sys_live s = l1 ++ f :: l2 -> live_count f (l1 ++ l2) = 0 ->
       is_Some (mapDb (CloseFile f (sys_env s)) !! f) /\
       use_count (CloseFile f (sys_env s)) f = 0).
Proof.
  intros Hreach. destruct (registry_inv_reachable s Hreach) as [Hkeys [Hcnt Hnone]].
  assert (Hcount : forall f, use_count (sys_env s) f = live_count f (sys_live s)).
  { intros f. unfold use_count.
    destruct (mapFileUseCount (sys_env s) !! f) as [n |] eqn:Hc; simpl.
    - apply (Hcnt f n Hc).
    - symmetry. apply (Hnone f Hc). }
  assert (Hone : forall f l1 l2, sys_live s = l1 ++ f :: l2 -> live_count f (l1 ++ l2) = 0 ->
                   mapFileUseCount (sys_env s) !! f = Some 1).
  { intros f l1 l2 Hlive Hlast. pose proof (Hcount f) as Hc.
    rewrite Hlive, live_count_mid, decide_True, Hlast in Hc by reflexivity.
    unfold use_count in Hc.
    destruct (mapFileUseCount (sys_env s) !! f) as [n |] eqn:Hm; simpl in Hc.
    - rewrite Hc. reflexivity.
    - discriminate. }
  split; [exact Hcount | split; [| split]].
  - intros Hmock f. rewrite Hkeys. unfold use_count.
    destruct (mapFileUseCount (sys_env s) !! f) as [n |] eqn:Hc; simpl.
    + split; [intros _ | eauto]. apply (Hcnt f n Hc), Hmock.
    + split; [intros [? H]; discriminate | lia].
  - intros Hmock f l1 l2 Hlive Hlast.
    unfold CloseFile. rewrite (Hone f l1 l2 Hlive Hlast), Hmock. simpl.
    apply lookup_delete_eq.
  - intros Hmock f l1 l2 Hlive Hlast.
    pose proof (Hone f l1 l2 Hlive Hlast) as Hn.
    unfold CloseFile. rewrite Hn, Hmock. simpl. split.
    + apply Hkeys. rewrite Hn. eauto.
    + unfold use_count. simpl. rewrite lookup_insert_eq. reflexivity.
Qed.

Lemma registry_refcount_witness :
  ((forall f, use_count (sys_env reg_sys3) f = live_count f (sys_live reg_sys3)) /\
   (fMockDb (sys_env reg_sys3) = false ->
      forall f, is_Some (mapDb (sys_env reg_sys3) !! f) <-> 1 <= use_count (sys_env reg_sys3) f) /\
   (fMockDb (sys_env reg_sys3) = false ->
      forall f l1 l2, sys_live reg_sys3 = l1 ++ f :: l2 -> live_count f (l1 ++ l2) = 0 ->
        mapDb (CloseFile f (sys_env reg_sys3)) !! f = None) /\
   (fMockDb (sys_env reg_sys3) = true ->
      forall f l1 l2, sys_live reg_sys3 = l1 ++ f :: l2 -> live_count f (l1 ++ l2) = 0 ->
        is_Some (mapDb (CloseFile f (sys_env reg_sys3)) !! f) /\
        use_count (CloseFile f (sys_env reg_sys3)) f = 0)) /\
  ((forall f, use_count (sys_env mock_sys1) f = live_count f (sys_live mock_sys1)) /\
   (fMockDb (sys_env mock_sys1) = false ->
      forall f, is_Some (mapDb (sys_env mock_sys1) !! f) <-> 1 <= use_count (sys_env mock_sys1) f) /\
   (fMockDb (sys_env mock_sys1) = false ->
      forall f l1 l2, sys_live mock_sys1 = l1 ++ f :: l2 -> live_count f (l1 ++ l2) = 0 ->
        mapDb (CloseFile f (sys_env mock_sys1)) !! f = None) /\
   (fMockDb (sys_env mock_sys1) = true ->
      forall f l1 l2, sys_live mock_sys1 = l1 ++ f :: l2 -> live_count f (l1 ++ l2) = 0 ->
        is_Some (mapDb (CloseFile f (sys_env mock_sys1)) !! f) /\
        use_count (CloseFile f (sys_env mock_sys1)) f = 0)).
Proof.
  split.
  - apply registry_refcount. exact reachable_reg_three.
  - apply registry_refcount. exact reachable_mock_one.
Defined.

(** ** Further properties of the accessor *)

(** [Write] on an open handle that passes the read-only check is one
    [DB->put] whose status 0 counts as success. *)
Lemma Write_open {K T : Type} (ck : Codec K) (ct : Codec T) (NDEBUG : bool) (a : CDB)
    (db : db_ptr) (key : K) (value : T) (ow : bool) (e : Eng) :
  pdb a = Some db -> (fReadOnly a = false \/ NDEBUG = true) ->
  Write ck ct NDEBUG a key value ow e =
    Ret (fst (db_put e db (activeTxn a) (encode ck key) (encode ct value)
                (if ow then 0 else DB_NOOVERWRITE)) =? 0,
         snd (db_put e db (activeTxn a) (encode ck key) (encode ct value)
                (if ow then 0 else DB_NOOVERWRITE))).
Proof.
  intros Hp Hrw. unfold Write. rewrite Hp.
  destruct Hrw as [Hrw | Hnd].
  - rewrite Hrw. simpl. destruct (db_put _ _ _ _ _ _). reflexivity.
  - rewrite Hnd. destruct (fReadOnly a); simpl; destruct (db_put _ _ _ _ _ _); reflexivity.
Qed.

(** X1: with [fOverwrite=false], [Write] of a key already stored returns
    false and leaves the records as they were. *)
Theorem Write_no_overwrite_existing {K T : Type} (ck : Codec K) (ct : Codec T)
    (NDEBUG : bool) (a : CDB) (db : db_ptr) (key : K) (value : T) (e : Eng) (old : bytes) :
  pdb a = Some db -> (fReadOnly a = false \/ NDEBUG = true) ->
  e_fault e = None -> e_store e !! encode ck key = Some old ->
  exists e', Write ck ct NDEBUG a key value false e = Ret (false, e') /\
             e_store e' = e_store e.
Proof.
  intros Hp Hrw Hf Hk. rewrite (Write_open ck ct NDEBUG a db key value false e Hp Hrw).
  unfold_engine. rewrite Hf, Hk. simpl. eexists. split; reflexivity.
Qed.

Lemma Write_no_overwrite_existing_witness :
  exists e', Write raw_codec raw_codec false acc_rw (b "k") (b "new") false
               (e_set_store eng0 {[b "k" := b "old"]}) = Ret (false, e') /\
             e_store e' = e_store (e_set_store eng0 {[b "k" := b "old"]}).
Proof.
  apply (Write_no_overwrite_existing raw_codec raw_codec false acc_rw 1 (b "k") (b "new")
           (e_set_store eng0 {[b "k" := b "old"]}) (b "old")).
  - reflexivity.
  - left. reflexivity.
  - reflexivity.
  - reflexivity.
Defined.

(** X2: without an engine failure, [Write] with [fOverwrite=true], or of a
    key not yet stored, returns true and stores the encoded value under the
    encoded key, replacing any previous value and leaving the other keys. *)
Theorem Write_stores {K T : Type} (ck : Codec K) (ct : Codec T) (NDEBUG : bool)
    (a : CDB) (db : db_ptr) (key : K) (value : T) (ow : bool) (e : Eng) :
  pdb a = Some db -> (fReadOnly a = false \/ NDEBUG = true) ->
  e_fault e = None -> (ow = true \/ e_store e !! encode ck key = None) ->
  exists e', Write ck ct NDEBUG a key value ow e = Ret (true, e') /\
             e_store e' = <[encode ck key := encode ct value]> (e_store e).
Proof.
  intros Hp Hrw Hf Hcase. rewrite (Write_open ck ct NDEBUG a db key value ow e Hp Hrw).
  unfold_engine. rewrite Hf.
  destruct Hcase as [-> | Hk].
  - simpl. eexists. split; reflexivity.
  - rewrite Hk. simpl. rewrite andb_false_r. simpl. eexists. split; reflexivity.
Qed.

Lemma Write_stores_witness :
  exists e', Write raw_codec raw_codec false acc_rw (b "k") (b "new") true
               (e_set_store eng0 {[b "k" := b "old"]}) = Ret (true, e') /\
             e_store e' = <[b "k" := b "new"]> (e_store (e_set_store eng0 {[b "k" := b "old"]})).
Proof.
  apply (Write_stores raw_codec raw_codec false acc_rw 1 (b "k") (b "new") true
           (e_set_store eng0 {[b "k" := b "old"]})).
  - reflexivity.
  - left. reflexivity.
  - reflexivity.
  - left. reflexivity.
Defined.

(** X3: when the engine fails, [Write] returns false and [Erase] returns
    false unless the failure status is [DB_NOTFOUND]; neither changes the
    records. *)
Theorem Write_Erase_engine_failure {K T : Type} (ck : Codec K) (ct : Codec T)
    (NDEBUG : bool) (a : CDB) (db : db_ptr) (key : K) (value : T) (ow : bool)
    (e : Eng) (f : fault) :
  pdb a = Some db -> (fReadOnly a = false \/ NDEBUG = true) -> e_fault e = Some f ->
  (exists e', Write ck ct NDEBUG a key value ow e = Ret (false, e') /\
              e_store e' = e_store e) /\
  (exists e', Erase ck NDEBUG a key e = Ret (fault_code f =? DB_NOTFOUND, e') /\
              e_store e' = e_store e).
Proof.
  intros Hp Hrw Hf.
  rewrite (Write_open ck ct NDEBUG a db key value ow e Hp Hrw),
          (Erase_open ck NDEBUG a db key e Hp Hrw).
  unfold_engine. rewrite Hf.
  split; (eexists; split; [destruct f; reflexivity | reflexivity]).
Qed.

Lemma Write_Erase_engine_failure_witness :
  (exists e', Write raw_codec raw_codec false acc_rw (b "k") (b "v") true
                (mkEng ∅ (Some (FPos 5)) (fun _ => (0, Some 7)) (fun _ => 0) (fun _ => 0) [])
              = Ret (false, e') /\ e_store e' = ∅) /\
  (exists e', Erase raw_codec false acc_rw (b "k")
                (mkEng ∅ (Some (FPos 5)) (fun _ => (0, Some 7)) (fun _ => 0) (fun _ => 0) [])
              = Ret (fault_code (FPos 5) =? DB_NOTFOUND, e') /\ e_store e' = ∅).
Proof.
  apply (Write_Erase_engine_failure raw_codec raw_codec false acc_rw 1 (b "k") (b "v") true
           (mkEng ∅ (Some (FPos 5)) (fun _ => (0, Some 7)) (fun _ => 0) (fun _ => 0) [])
           (FPos 5)).
  - reflexivity.
  - left. reflexivity.
  - reflexivity.
Defined.

(** X4: on an open handle [Exists] is true exactly when the engine does not
    fail and the encoded key is stored; it issues one [DB->exists] under the
    accessor's transaction and changes nothing else, whatever the read-only
    flag. *)
Theorem Exists_spec {K : Type} (ck : Codec K) (a : CDB) (db : db_ptr) (key : K) (e : Eng) :
  pdb a = Some db ->
  (fst (Exists ck a key e) = true <->
     e_fault e = None /\ is_Some (e_store e !! encode ck key)) /\
  snd (Exists ck a key e) = e_record e (CExists db (activeTxn a) (encode ck key)).
Proof.
  intros Hp. unfold Exists. rewrite Hp. unfold_engine.
  destruct (e_fault e) as [f |].
  - simpl. split; [| reflexivity]. split.
    + destruct f; discriminate.
    + intros [H _]; discriminate.
  - destruct (e_store e !! encode ck key) eqn:Hk; simpl; (split; [| reflexivity]).
    + split; [eauto | reflexivity].
    + split; [discriminate | intros [_ [? H]]; discriminate].
Qed.

Lemma Exists_spec_witness :
  (fst (Exists raw_codec acc_ro (b "k") (e_set_store eng0 {[b "k" := b "v"]})) = true <->
     e_fault (e_set_store eng0 {[b "k" := b "v"]}) = None /\
     is_Some (e_store (e_set_store eng0 {[b "k" := b "v"]}) !! b "k")) /\
  snd (Exists raw_codec acc_ro (b "k") (e_set_store eng0 {[b "k" := b "v"]}))
    = e_record (e_set_store eng0 {[b "k" := b "v"]}) (CExists 1 None (b "k")).
Proof. apply (Exists_spec raw_codec acc_ro 1 (b "k")). reflexivity. Defined.

(** X5: on an open handle [Read] issues exactly one [DB->get], under the
    accessor's transaction, and changes nothing else: the records are
    untouched whatever the lookup or the decoding gives. *)
Theorem Read_engine_effect {K T : Type} (ck : Codec K) (ct : Codec T) (a : CDB)
    (db : db_ptr) (key : K) (e : Eng) :
  pdb a = Some db ->
  snd (Read ck ct a key e) = e_record e (CGet db (activeTxn a) (encode ck key)).
Proof.
  intros Hp. unfold Read. rewrite Hp. unfold_engine.
  destruct (e_fault e); [reflexivity |].
  destruct (e_store e !! encode ck key) as [raw |]; [| reflexivity].
  simpl. destruct (decode ct raw); reflexivity.
Qed.

Lemma Read_engine_effect_witness :
  snd (Read raw_codec raw_codec (set_activeTxn acc_rw (Some 7)) (b "k") eng0)
    = e_record eng0 (CGet 1 (Some 7) (b "k")).
Proof.
  apply (Read_engine_effect raw_codec raw_codec (set_activeTxn acc_rw (Some 7)) 1 (b "k") eng0).
  reflexivity.
Defined.

(** X6: on an open handle that passes the read-only check, [Write] and
    [Erase] each issue exactly one engine call under the accessor's
    transaction: a put with flags 0 ([fOverwrite]) or [DB_NOOVERWRITE], a
    del. *)
Theorem Write_Erase_engine_call {K T : Type} (ck : Codec K) (ct : Codec T)
    (NDEBUG : bool) (a : CDB) (db : db_ptr) (key : K) (value : T) (ow : bool) (e : Eng) :
  pdb a = Some db -> (fReadOnly a = false \/ NDEBUG = true) ->
  (exists r e', Write ck ct NDEBUG a key value ow e = Ret (r, e') /\
     e_log e' = e_log e ++ [CPut db (activeTxn a) (encode ck key) (encode ct value)
                              (if ow then 0 else DB_NOOVERWRITE)]) /\
  (exists r e', Erase ck NDEBUG a key e = Ret (r, e') /\
     e_log e' = e_log e ++ [CDel db (activeTxn a) (encode ck key)]).
Proof.
  intros Hp Hrw.
  rewrite (Write_open ck ct NDEBUG a db key value ow e Hp Hrw),
          (Erase_open ck NDEBUG a db key e Hp Hrw).
  split; do 2 eexists; (split; [reflexivity |]); unfold_engine.
  - destruct (e_fault e); [reflexivity |]. destruct (_ && _); reflexivity.
  - destruct (e_fault e); [reflexivity |]. destruct (e_store e !! _); reflexivity.
Qed.

Lemma Write_Erase_engine_call_witness :
  (exists r e', Write raw_codec raw_codec false (set_activeTxn acc_rw (Some 7)) (b "k") (b "v")
                  false eng0 = Ret (r, e') /\
     e_log e' = [CPut 1 (Some 7) (b "k") (b "v") DB_NOOVERWRITE]) /\
  (exists r e', Erase raw_codec false (set_activeTxn acc_rw (Some 7)) (b "k") eng0 = Ret (r, e') /\
     e_log e' = [CDel 1 (Some 7) (b "k")]).
Proof.
  apply (Write_Erase_engine_call raw_codec raw_codec false (set_activeTxn acc_rw (Some 7)) 1 (b "k") (b "v") false eng0).
  - reflexivity.
  - left. reflexivity.
Defined.

(** X7: after an [Erase] that returned true, the key is gone: [Exists]
    returns false and [Read] reports absence. *)
Theorem Erase_then_absent {K T : Type} (ck : Codec K) (ct : Codec T) (NDEBUG : bool)
    (a : CDB) (key : K) (e e1 : Eng) :
  Erase ck NDEBUG a key e = Ret (true, e1) ->
  fst (Exists ck a key e1) = false /\ fst (Read ck ct a key e1) = (false, None).
Proof.
  intros Her.
  destruct (pdb a) as [db |] eqn:Hp; [| unfold Erase in Her; rewrite Hp in Her; discriminate].
  assert (Hrw : fReadOnly a = false \/ NDEBUG = true).
  { destruct (fReadOnly a) eqn:Hro, NDEBUG; auto.
    unfold Erase in Her. rewrite Hp, Hro in Her. discriminate. }
  rewrite (Erase_open ck NDEBUG a db key e Hp Hrw) in Her.
  injection Her as _ He1.
  assert (Hgone : e_fault e1 <> None \/ e_store e1 !! encode ck key = None).
  { subst e1. unfold_engine. destruct (e_fault e); [left; discriminate | right].
    destruct (e_store e !! encode ck key) eqn:Hk; simpl;
      [apply lookup_delete_eq | exact Hk]. }
  unfold Exists, Read. rewrite Hp. unfold_engine.
  destruct (e_fault e1) as [f |]; [destruct f; split; reflexivity |].
  destruct Hgone as [Hf | Hk]; [congruence |]. rewrite Hk. split; reflexivity.
Qed.

Lemma Erase_then_absent_witness :
  fst (Exists raw_codec acc_rw (b "k") (e_set_store (e_record eng0 (CDel 1 None (b "k"))) ∅))
    = false /\
  fst (Read raw_codec raw_codec acc_rw (b "k") (e_set_store (e_record eng0 (CDel 1 None (b "k"))) ∅))
    = (false, None).
Proof.
  apply (Erase_then_absent raw_codec raw_codec false acc_rw (b "k")
           (e_set_store eng0 {[b "k" := b "v"]})).
  vm_compute. reflexivity.
Defined.

(** X8: [WriteVersion n] that returned true makes [ReadVersion] return
    true and [n], when [n] round-trips through the [int] codec. *)
Theorem WriteVersion_ReadVersion (cs : Codec string) (ci : Codec Z) (NDEBUG : bool)
    (a : CDB) (n : Z) (e e1 : Eng) :
  decode ci (encode ci n) = Some n ->
  WriteVersion cs ci NDEBUG a n e = Ret (true, e1) ->
  fst (ReadVersion cs ci a e1) = (true, n).
Proof.
  intros Hrt Hw.
  destruct (Write_true_stored cs ci NDEBUG a "version" n true e e1 Hw) as [Hf Hs].
  assert (Hdb : pdb a <> None).
  { intros Hn. unfold WriteVersion, Write in Hw. rewrite Hn in Hw. discriminate. }
  unfold ReadVersion, Read. destruct (pdb a) as [db |]; [| congruence].
  unfold_engine. rewrite Hf, Hs. simpl. rewrite Hrt. reflexivity.
Qed.

Lemma WriteVersion_ReadVersion_witness :
  exists e1, WriteVersion str_codec int_codec false acc_rw 60000 eng0 = Ret (true, e1) /\
             fst (ReadVersion str_codec int_codec acc_rw e1) = (true, 60000).
Proof.
  eexists. split; [reflexivity |].
  eapply (WriteVersion_ReadVersion str_codec int_codec false acc_rw 60000 eng0).
  - reflexivity.
  - reflexivity.
Defined.

(** X9: [ReadVersion] on a file without a decodable "version" record
    returns false and the version 0. *)
Theorem ReadVersion_absent (cs : Codec string) (ci : Codec Z) (a : CDB) (e : Eng) :
  (e_store e !! encode cs "version" = None \/
   exists raw, e_store e !! encode cs "version" = Some raw /\ decode ci raw = None) ->
  fst (ReadVersion cs ci a e) = (false, 0).
Proof.
  intros Hcase. unfold ReadVersion, Read.
  destruct (pdb a) as [db |]; [| reflexivity].
  unfold_engine. destruct (e_fault e); [reflexivity |].
  destruct Hcase as [Hnone | [raw [Hraw Hdec]]].
  - rewrite Hnone. reflexivity.
  - rewrite Hraw. simpl. rewrite Hdec. reflexivity.
Qed.

Lemma ReadVersion_absent_witness :
  fst (ReadVersion str_codec int_codec acc_rw
         (e_set_store eng0 {[encode str_codec "version" := [Byte.x01]]})) = (false, 0).
Proof.
  apply ReadVersion_absent. right. exists [Byte.x01]. split; reflexivity.
Defined.

(** X10: on an open handle with no active transaction, [TxnBegin] asks
    the environment for a [DB_TXN_WRITE_NOSYNC] transaction; it installs it
    and returns true when the engine answers 0 with a non-null pointer, and
    otherwise returns false with the accessor unchanged. *)
Theorem TxnBegin_open (a : CDB) (db : db_ptr) (e : Eng) :
  pdb a = Some db -> activeTxn a = None ->
  TxnBegin a e =
    match e_txn_begin e DB_TXN_WRITE_NOSYNC with
    | (0, Some p) => (true, set_activeTxn a (Some p), e_record e (CTxnBegin DB_TXN_WRITE_NOSYNC))
    | _ => (false, a, e_record e (CTxnBegin DB_TXN_WRITE_NOSYNC))
    end.
Proof.
  intros Hp Ht. unfold TxnBegin. rewrite Hp, Ht.
  rewrite (bool_decide_eq_false_2 (Some db = None)) by discriminate.
  rewrite (bool_decide_eq_false_2 (is_Some (@None txn_ptr))) by (intros [? H]; discriminate).
  simpl. unfold CDBEnv_TxnBegin_default, CDBEnv_TxnBegin, env_txn_begin.
  destruct (e_txn_begin e DB_TXN_WRITE_NOSYNC) as [[| r | r] [p |]]; reflexivity.
Qed.

Lemma TxnBegin_open_witness :
  TxnBegin acc_rw eng0 = (true, set_activeTxn acc_rw (Some 7), e_record eng0 (CTxnBegin DB_TXN_WRITE_NOSYNC)).
Proof.
  apply (TxnBegin_open acc_rw 1 eng0); reflexivity.
Defined.

(** X11: whatever sequence of [TxnBegin], [TxnCommit] and [TxnAbort] calls
    is made, a transaction is never active on an accessor whose handle is
    null. *)
Theorem run_txn_wf (ops : list TxnOp) (a : CDB) (e : Eng) :
  acc_wf a -> acc_wf (fst (run_txn ops a e)).
Proof.
  revert a e. induction ops as [| op ops IH]; intros a e Hwf; simpl; [exact Hwf |].
  destruct op.
  - pose proof (TxnBegin_wf a e Hwf) as H.
    destruct (TxnBegin a e) as [[r a'] e']. apply IH, H.
  - pose proof (TxnCommit_wf a e Hwf) as H.
    destruct (TxnCommit a e) as [[r a'] e']. apply IH, H.
  - pose proof (TxnAbort_wf a e Hwf) as H.
    destruct (TxnAbort a e) as [[r a'] e']. apply IH, H.
Qed.

Lemma run_txn_wf_witness :
  acc_wf (fst (run_txn [TBegin; TCommit; TBegin; TAbort; TBegin] acc_closed eng0)).
Proof. apply run_txn_wf. unfold acc_wf. intros _. reflexivity. Defined.

(** X12: after [TxnCommit] or [TxnAbort] of the active transaction, a new
    [TxnBegin] on the same accessor succeeds whenever the engine grants a
    transaction. *)
Theorem TxnBegin_after_end (a : CDB) (db : db_ptr) (t p : txn_ptr) (e : Eng) :
  pdb a = Some db -> activeTxn a = Some t ->
  e_txn_begin e DB_TXN_WRITE_NOSYNC = (0, Some p) ->
  fst (fst (TxnBegin (snd (fst (TxnCommit a e))) (snd (TxnCommit a e)))) = true /\
  fst (fst (TxnBegin (snd (fst (TxnAbort a e))) (snd (TxnAbort a e)))) = true.
Proof.
  intros Hp Ht Hb. unfold TxnCommit, TxnAbort. rewrite Hp, Ht. simpl.
  unfold TxnBegin. simpl. rewrite Hp.
  try rewrite (bool_decide_eq_false_2 (Some db = None)) by discriminate.
  try rewrite (bool_decide_eq_false_2 (is_Some (@None txn_ptr))) by (intros [? H]; discriminate).
  simpl. unfold CDBEnv_TxnBegin_default, CDBEnv_TxnBegin, env_txn_begin, e_record. simpl.
  rewrite Hb. split; reflexivity.
Qed.

Lemma TxnBegin_after_end_witness :
  fst (fst (TxnBegin (snd (fst (TxnCommit (set_activeTxn acc_rw (Some 3)) eng0)))
                     (snd (TxnCommit (set_activeTxn acc_rw (Some 3)) eng0)))) = true /\
  fst (fst (TxnBegin (snd (fst (TxnAbort (set_activeTxn acc_rw (Some 3)) eng0)))
                     (snd (TxnAbort (set_activeTxn acc_rw (Some 3)) eng0)))) = true.
Proof.
  apply (TxnBegin_after_end (set_activeTxn acc_rw (Some 3)) 1 3 7 eng0); reflexivity.
Defined.
